(** * Acquisitions API: authentication service, user listing and sign-up
      controller

    A shallow embedding of

      - [src/services/auth.service.js]  ([hashPassword], [comparePassword],
        [createUser], [authenticateUser]),
      - the users service                ([getAllUsers]),
      - the sign-up controller           ([signup]),

    together with the properties of the specification that concern them.

    The JavaScript code is asynchronous but strictly sequential: every
    [await] is modelled as a monadic bind over an explicit [World] holding
    the [users] table, the storage-side generators, the random source of
    the hashing library and the log. *)

From Stdlib Require Import ZArith String Ascii List Bool Lia.
From stdpp Require Import base gmap strings list pretty.

Local Open Scope string_scope.
Local Open Scope Z_scope.

(** ** JavaScript values, objects and errors *)

(** The scalar values that flow through the service: row fields, request
    fields and response fields. *)
Inductive jsval : Type :=
  | VUndefined
  | VNull
  | VBool (b : bool)
  | VNum (n : Z)
  | VStr (s : string)
  | VDate (t : Z).

#[global] Instance jsval_eq_dec : EqDecision jsval.
Proof. solve_decision. Defined.

(** A plain JavaScript object: a finite map from property names to values. *)
Abbreviation obj := (gmap string jsval).

(** Reading a property; a missing property reads as [undefined]. *)
Definition prop (o : obj) (k : string) : jsval :=
  match o !! k with
  | Some v => v
  | None => VUndefined
  end.

(** An [Error] instance: its [name] and its [message]. *)
Record JsError : Type := mkJsError {
  err_name : string;
  err_message : string
}.

#[global] Instance JsError_eq_dec : EqDecision JsError.
Proof. solve_decision. Defined.

(** [new Error(msg)] *)
Definition Error (msg : string) : JsError :=
  {| err_name := "Error"; err_message := msg |}.

(** The [TypeError] the runtime raises, e.g. when a non-function is called. *)
Definition TypeError (msg : string) : JsError :=
  {| err_name := "TypeError"; err_message := msg |}.

(** String conversion of an error inside a template literal: [`${e}`]. *)
Definition error_to_string (e : JsError) : string :=
  err_name e +:+ ": " +:+ err_message e.

(** ** The hashing library

    [bcrypt] is an external collaborator.  Its Blowfish-based primitive is
    left abstract ([eksblowfish] below); what is modelled is the envelope
    the service relies on: the digest carries its own setting (version,
    cost and salt) in its first 29 characters, verification recomputes the
    digest of the candidate under that setting, and the key schedule reads
    at most 72 bytes of the password. *)
Module Bcrypt.

Definition key_bytes : nat := 72.
Definition setting_length : nat := 29.

(** The 22 characters encoding the 16 random salt bytes. *)
Record salt : Type := mkSalt {
  salt_chars : string;
  salt_chars_length : String.length salt_chars = 22%nat
}.

Fixpoint string_take (n : nat) (s : string) : string :=
  match n, s with
  | O, _ => EmptyString
  | S _, EmptyString => EmptyString
  | S n', String c s' => String c (string_take n' s')
  end.

Definition clamp_rounds (rounds : nat) : nat :=
  if (rounds <? 4)%nat then 4%nat
  else if (31 <? rounds)%nat then 31%nat
  else rounds.

Definition digit (n : nat) : ascii := ascii_of_nat (48 + n).

Definition two_digits (n : nat) : string :=
  String (digit (n / 10)) (String (digit (n mod 10)) EmptyString).

(** [genSalt(rounds)]: the setting string ["$2b$NN$" + 22 salt characters]. *)
Definition gen_salt (rounds : nat) (s : salt) : string :=
  "$2b$" +:+ two_digits (clamp_rounds rounds) +:+ "$" +:+ salt_chars s.

Definition is_digit (c : ascii) : bool :=
  let n := nat_of_ascii c in ((48 <=? n) && (n <=? 57))%nat.

Definition is_minor (c : ascii) : bool :=
  Ascii.eqb c "a" || Ascii.eqb c "b".

(** The structural check verification performs on a stored digest before
    it recomputes anything: version 2 with a minor revision, a two-digit
    cost, and at least 22 characters after the third dollar sign. *)
Definition valid_salt (d : string) : bool :=
  match d with
  | String "$" (String "2" (String m (String "$"
      (String d1 (String d2 (String "$" rest)))))) =>
      is_minor m && is_digit d1 && is_digit d2
      && (22 <=? String.length rest)%nat
  | _ => false
  end.

Section Primitive.

(** The expensive-key-schedule Blowfish primitive: from the setting and
    the key bytes to the encoded checksum. *)
Variable eksblowfish : string -> string -> string.

(** The digest of [key] under the setting found at the head of
    [setting] (a setting string or a full digest). *)
Definition crypt (key setting : string) : string :=
  string_take setting_length setting
  +:+ eksblowfish (string_take setting_length setting) (string_take key_bytes key).

(** [hash(data, rounds)] on a string, given the random salt. *)
Definition hash (data : string) (rounds : nat) (s : salt) : string :=
  crypt data (gen_salt rounds s).

(** [compare(data, encrypted)] on two strings. *)
Definition compare (data encrypted : string) : bool :=
  if valid_salt encrypted
  then String.eqb (crypt data encrypted) encrypted
  else false.

End Primitive.

End Bcrypt.

(** ** The world: storage, generators, random source, log *)

(** A row of the [users] table. *)
Record UserRow : Type := mkUserRow {
  row_id : Z;
  row_name : string;
  row_email : string;
  row_password : string;
  row_role : string;
  row_created_at : Z;
  row_updated_at : Z
}.

#[global] Instance UserRow_eq_dec : EqDecision UserRow.
Proof. solve_decision. Defined.

(** The columns of [users], as the queries name them. *)
Inductive column : Type :=
  | users_id
  | users_name
  | users_email
  | users_password
  | users_role
  | users_created_at
  | users_updated_at.

Definition column_value (c : column) (r : UserRow) : jsval :=
  match c with
  | users_id => VNum (row_id r)
  | users_name => VStr (row_name r)
  | users_email => VStr (row_email r)
  | users_password => VStr (row_password r)
  | users_role => VStr (row_role r)
  | users_created_at => VDate (row_created_at r)
  | users_updated_at => VDate (row_updated_at r)
  end.

(** A selection [{ key: users.col, ... }]. *)
Definition selection : Type := list (string * column).

(** The object a selection builds from a row. *)
Fixpoint project (sel : selection) (r : UserRow) : obj :=
  match sel with
  | [] => ∅
  | (k, c) :: sel' => <[k := column_value c r]> (project sel' r)
  end.

(** [db.select()] without argument selects every column under its own name. *)
Definition all_columns : selection :=
  [ ("id", users_id); ("name", users_name); ("email", users_email);
    ("password", users_password); ("role", users_role);
    ("created_at", users_created_at); ("updated_at", users_updated_at) ].

Inductive level : Type := info | error.

Record LogEntry : Type := mkLogEntry {
  log_level : level;
  log_message : string
}.

Record World : Type := mkWorld {
  users : list UserRow;          (* the table, in storage order *)
  users_id_seq : Z;              (* next value of the [id] sequence *)
  now : Z;                       (* storage clock, for timestamp defaults *)
  entropy : list Bcrypt.salt;    (* what the random source will deliver *)
  logs : list LogEntry           (* log, oldest first *)
}.

(** ** A state-and-exception monad for the asynchronous code *)

Inductive outcome (A : Type) : Type :=
  | Returns (a : A)
  | Throws (e : JsError).
Arguments Returns {A} a.
Arguments Throws {A} e.

Definition Js (A : Type) : Type := World -> outcome A * World.

Definition ret {A} (a : A) : Js A := fun w => (Returns a, w).

Definition throw {A} (e : JsError) : Js A := fun w => (Throws e, w).

Definition bind {A B} (m : Js A) (k : A -> Js B) : Js B :=
  fun w =>
    match m w with
    | (Returns a, w') => k a w'
    | (Throws e, w') => (Throws e, w')
    end.

(** [try { m } catch (e) { handler e }] *)
Definition try_catch {A} (m : Js A) (handler : JsError -> Js A) : Js A :=
  fun w =>
    match m w with
    | (Returns a, w') => (Returns a, w')
    | (Throws e, w') => handler e w'
    end.

Notation "'await' x <- m ; k" := (bind m (fun x => k))
  (at level 10, x name, m at level 100, k at level 200, only parsing).
Notation "'exec' m ; k" := (bind m (fun _ => k))
  (at level 10, m at level 100, k at level 200, only parsing).

(** ** The logger *)

Definition with_log (l : level) (msg : string) (w : World) : World :=
  {| users := users w; users_id_seq := users_id_seq w; now := now w;
     entropy := entropy w;
     logs := logs w ++ [ {| log_level := l; log_message := msg |} ] |}.

Definition log_entry (l : level) (msg : string) : Js unit :=
  fun w => (Returns tt, with_log l msg w).

Definition logger_info : string -> Js unit := log_entry info.
Definition logger_error : string -> Js unit := log_entry error.

(** Rendering of a value inside a template literal.  Dates render through
    the host's locale; no message of this code interpolates one, and the
    epoch value stands for it here. *)
Definition interpolate (v : jsval) : string :=
  match v with
  | VUndefined => "undefined"
  | VNull => "null"
  | VBool true => "true"
  | VBool false => "false"
  | VNum n => pretty n
  | VStr s => s
  | VDate t => pretty t
  end.

(** ** The query layer over [users] *)

(** Text the store can hold: any string without a NUL byte.  The store
    rejects a statement that carries other text, as a bound parameter or as
    a value to write. *)
Fixpoint has_nul (s : string) : bool :=
  match s with
  | EmptyString => false
  | String c s' => Ascii.eqb c Ascii.zero || has_nul s'
  end.

Definition storable (v : jsval) : bool :=
  match v with
  | VStr s => negb (has_nul s)
  | _ => true
  end.

(** The error a rejected statement raises.  Its name and text are the
    driver's; the service never produces them itself. *)
Definition store_rejection : JsError :=
  {| err_name := "NeonDbError";
     err_message := "invalid byte sequence for encoding UTF8: 0x00" |}.

(** A [where] condition: the parameters it binds and the rows it holds of. *)
Record condition : Type := mkCondition {
  cond_params : list jsval;
  cond_holds :> UserRow -> bool
}.

(** [eq(users.col, v)]: exact, case-sensitive equality on a column, with
    [v] bound as a parameter. *)
Definition drizzle_eq (c : column) (v : jsval) : condition :=
  {| cond_params := [v];
     cond_holds := fun r => bool_decide (column_value c r = v) |}.

(** Whether the store rejects a query, given the rows that match it.  A
    row that matches an equality holds the very text of the parameter, and
    the store held that text when the row was written; so a parameter the
    store cannot hold is one that matches nothing, and the rejection sits
    there.  A query without parameters is never rejected. *)
Definition rejected (cond : option condition) (matching : list UserRow)
    : bool :=
  match cond, matching with
  | Some c, [] => negb (forallb storable (cond_params c))
  | _, _ => false
  end.

(** [db.select(sel).from(users).where(cond).limit(n)]; [None] for an absent
    [where] or [limit].  Rows come in storage order.  The store is taken to
    be reachable: a query rejects only for what it carries. *)
Definition db_select (sel : selection) (cond : option condition)
    (limit : option nat) : Js (list obj) :=
  fun w =>
    let matching :=
      match cond with
      | Some c => List.filter c (users w)
      | None => users w
      end in
    let rows :=
      match limit with
      | Some n => firstn n matching
      | None => matching
      end in
    if rejected cond matching
    then (Throws store_rejection, w)
    else (Returns (map (project sel) rows), w).

(** The values an insert supplies; [id], [created_at] and [updated_at] are
    not supplied by the service and come from the storage defaults (the
    [id] sequence and the storage clock). *)
Record InsertValues : Type := mkInsertValues {
  ins_name : string;
  ins_email : string;
  ins_password : string;
  ins_role : string
}.

Definition new_row (v : InsertValues) (w : World) : UserRow :=
  {| row_id := users_id_seq w;
     row_name := ins_name v;
     row_email := ins_email v;
     row_password := ins_password v;
     row_role := ins_role v;
     row_created_at := now w;
     row_updated_at := now w |}.

(** The world after [r] was appended to the table. *)
Definition with_row (r : UserRow) (w : World) : World :=
  {| users := users w ++ [r];
     users_id_seq := users_id_seq w + 1;
     now := now w;
     entropy := entropy w;
     logs := logs w |}.

(** Whether the store can hold every text an insert supplies. *)
Definition insertable (v : InsertValues) : bool :=
  forallb storable
    [VStr (ins_name v); VStr (ins_email v); VStr (ins_password v);
     VStr (ins_role v)].

(** [db.insert(users).values(v).returning(sel)]: rejected, with nothing
    written, when the store cannot hold a supplied text. *)
Definition db_insert (v : InsertValues) (returning : selection)
    : Js (list obj) :=
  fun w =>
    let r := new_row v w in
    if insertable v
    then (Returns [project returning r], with_row r w)
    else (Throws store_rejection, w).

(** The world after the random source delivered a salt. *)
Definition with_entropy (rest : list Bcrypt.salt) (w : World) : World :=
  {| users := users w; users_id_seq := users_id_seq w; now := now w;
     entropy := rest; logs := logs w |}.

(** ** The services *)

Section Service.

Variable eksblowfish : string -> string -> string.

(** [bcrypt.hash(data, rounds)]: rejects when [data] is missing or not a
    string, or when the random source cannot deliver a salt (an empty
    [entropy]).  The wrappers below discard the library's message. *)
Definition bcrypt_hash (data : jsval) (rounds : nat) : Js string :=
  fun w =>
    match data with
    | VUndefined | VNull =>
        (Throws (Error "data and salt arguments required"), w)
    | VStr s =>
        match entropy w with
        | [] => (Throws (Error "salt generation failed"), w)
        | salt :: rest =>
            (Returns (Bcrypt.hash eksblowfish s rounds salt),
             with_entropy rest w)
        end
    | _ =>
        (Throws (Error "data must be a string or Buffer and salt must either be a salt string or a number of rounds"), w)
    end.

(** [bcrypt.compare(data, hash)]: rejects when an argument is missing or
    not a string; on two strings it always resolves to a boolean. *)
Definition bcrypt_compare (data encrypted : jsval) : Js bool :=
  match data, encrypted with
  | VUndefined, _ | VNull, _ | _, VUndefined | _, VNull =>
      throw (Error "data and hash arguments required")
  | VStr d, VStr h => ret (Bcrypt.compare eksblowfish d h)
  | _, _ => throw (Error "data and hash must be strings")
  end.

Definition hashPassword (password : jsval) : Js string :=
  try_catch
    (bcrypt_hash password 10)
    (fun e =>
       exec logger_error ("Error hashing the password: " +:+ error_to_string e);
       throw (Error "Error hashing the password")).

Definition comparePassword (password hashedPassword : jsval) : Js bool :=
  try_catch
    (bcrypt_compare password hashedPassword)
    (fun e =>
       exec logger_error ("Error comparing the password: " +:+ error_to_string e);
       throw (Error "Error comparing the password")).

(** The [returning] clause of [createUser]. *)
Definition created_columns : selection :=
  [ ("id", users_id); ("name", users_name); ("email", users_email);
    ("role", users_role); ("created_at", users_created_at) ].

(** The default of the destructured parameter [role = 'user']: it applies
    when the property is absent (or [undefined]), rendered [None]. *)
Definition role_or_default (role : option string) : string :=
  match role with
  | Some r => r
  | None => "user"
  end.

Definition createUser (name email : string) (password : jsval)
    (role : option string) : Js obj :=
  let role := role_or_default role in
  try_catch
    (await existing <- db_select all_columns
                         (Some (drizzle_eq users_email (VStr email))) (Some 1%nat);
     match head existing with
     | Some existingUser => throw (Error "User with this email already exists")
     | None =>
         await password_hash <- hashPassword password;
         await inserted <- db_insert
                             {| ins_name := name; ins_email := email;
                                ins_password := password_hash; ins_role := role |}
                             created_columns;
         match head inserted with
         | Some newUser =>
             exec logger_info ("User " +:+ interpolate (prop newUser "email")
                               +:+ " created successfully");
             ret newUser
         | None =>
             throw (TypeError "Cannot read properties of undefined (reading 'email')")
         end
     end)
    (fun e =>
       exec logger_error ("Error creating the user: " +:+ error_to_string e);
       throw e).

(** [const { password: _password, ...safeUser } = user] *)
Definition without_password (user : obj) : obj := delete "password" user.

Definition authenticateUser (email : string) (password : jsval) : Js obj :=
  try_catch
    (await found <- db_select all_columns
                      (Some (drizzle_eq users_email (VStr email))) (Some 1%nat);
     match head found with
     | None => throw (Error "Invalid email or password")
     | Some user =>
         await isMatch <- comparePassword password (prop user "password");
         if negb isMatch then throw (Error "Invalid email or password")
         else
           let safeUser := without_password user in
           exec logger_info ("User " +:+ email +:+ " authenticated successfully");
           ret safeUser
     end)
    (fun e =>
       exec logger_error ("Error authenticating the user: " +:+ error_to_string e);
       throw e).

(** The selection of [getAllUsers]. *)
Definition listed_columns : selection :=
  [ ("id", users_id); ("email", users_email); ("name", users_name);
    ("role", users_role); ("created_at", users_created_at);
    ("updated_at", users_updated_at) ].

Definition getAllUsers : Js (list obj) :=
  try_catch
    (await allUsers <- db_select listed_columns None None;
     ret allUsers)
    (fun e =>
       exec logger_error "Error getting users";
       throw e).

End Service.

(** ** The sign-up controller *)

(** What a handler did with the request: sent a response
    ([res.status(c).json(body)]), handed an error to [next], or returned
    having done neither. *)
Inductive reply : Type :=
  | Sent (status : Z) (body : obj)
  | Forwarded (e : JsError)
  | Unanswered.

(** The result of [schema.safeParse(payload)]: [{ success: true, data }] or
    [{ success: false, error }].  In both shapes every member is plain
    data. *)
Inductive SafeParseResult (ZodError : Type) : Type :=
  | ParseSuccess (data : obj)
  | ParseFailure (err : ZodError).
Arguments ParseSuccess {ZodError} data.
Arguments ParseFailure {ZodError} err.

Definition success {ZodError} (r : SafeParseResult ZodError) : bool :=
  match r with
  | ParseSuccess _ => true
  | ParseFailure _ => false
  end.

Section Controller.

(** The validation schema and the error formatter live in modules that
    are taken as given: any parser and any formatter. *)
Context {ZodError : Type}.
Variable signUpSchema_safeParse : obj -> SafeParseResult ZodError.
Variable formatValidationError : ZodError -> string.

(** [validationResult.data()]: the [data] member of a parse result is an
    object (or absent), never a function, so the call raises. *)
Definition call_data (validationResult : SafeParseResult ZodError) : Js obj :=
  throw (TypeError "validationResult.data is not a function").

(** The [catch] block of [signup]. *)
Definition signup_catch (e : JsError) : Js reply :=
  exec logger_error "Sign-up error";
  if String.eqb (err_message e) "User with this email already exists"
  then ret (Sent 409 {[ "error" := VStr "Email already exists" ]})
  else ret (Forwarded e).

Definition signup (body : obj) : Js reply :=
  try_catch
    (let validationResult := signUpSchema_safeParse body in
     match validationResult with
     | ParseFailure err =>
         ret (Sent 400
                (<[ "error" := VStr "Validation Failded" ]>
                   {[ "details" := VStr (formatValidationError err) ]}))
     | ParseSuccess _ =>
         await fields <- call_data validationResult;
         (* const { name, email, role } = fields; nothing follows *)
         ret Unanswered
     end)
    signup_catch.

End Controller.

(** ** Notions used to state the properties *)

(** The row [createUser] stores for a password [p] hashed under salt [s]:
    what its insert supplies, completed by the storage defaults of [w]. *)
Definition created_row (eksblowfish : string -> string -> string)
    (name email p : string) (role : option string)
    (s : Bcrypt.salt) (w : World) : UserRow :=
  new_row {| ins_name := name; ins_email := email;
             ins_password := Bcrypt.hash eksblowfish p 10 s;
             ins_role := role_or_default role |} w.

(** The line [authenticateUser] logs when it rejects credentials. *)
Definition invalid_credentials_log : string :=
  "Error authenticating the user: Error: Invalid email or password".

(** The lookup that [createUser] and [authenticateUser] start with. *)
Definition lookup_by_email (email : string) : Js (list obj) :=
  db_select all_columns (Some (drizzle_eq users_email (VStr email)))
    (Some 1%nat).

(** Whether that lookup resolves, that is, the store does not reject it. *)
Definition lookup_resolves (email : string) (w : World) : bool :=
  match fst (lookup_by_email email w) with
  | Returns _ => true
  | Throws _ => false
  end.

(** No two rows of the table carry the same email. *)
Definition emails_unique (w : World) : Prop :=
  NoDup (map row_email (users w)).

(** The line [createUser] and [authenticateUser] log before they rethrow. *)
Definition failure_log (operation : string) (e : JsError) : LogEntry :=
  {| log_level := error;
     log_message := operation +:+ ": " +:+ error_to_string e |}.

(** ** Sample data *)

(** A stand-in for the Blowfish primitive, to run the model on examples. *)
Definition sample_eksblowfish (setting key : string) : string :=
  key +:+ "/" +:+ setting.

Definition sample_salt : Bcrypt.salt :=
  Bcrypt.mkSalt "abcdefghijklmnopqrstuv" eq_refl.

(** An empty table, with one salt available from the random source. *)
Definition fresh_world : World :=
  {| users := []; users_id_seq := 1; now := 1700000000000;
     entropy := [sample_salt]; logs := [] |}.

(** The world after [{name: "A", email: "a@x.com", password: "p1"}] signed up. *)
Definition world_with_a : World :=
  snd (createUser sample_eksblowfish "A" "a@x.com" (VStr "p1") None fresh_world).

(** The row that sign-up stored. *)
Definition row_a : UserRow :=
  {| row_id := 1; row_name := "A"; row_email := "a@x.com";
     row_password := Bcrypt.hash sample_eksblowfish "p1" 10 sample_salt;
     row_role := "user";
     row_created_at := 1700000000000; row_updated_at := 1700000000000 |}.

(** The world after [{name: "R", email: "r@x.com", password: "p3",
    role: "admin"}] signed up on the empty table, and the row stored. *)
Definition world_with_admin : World :=
  snd (createUser sample_eksblowfish "R" "r@x.com" (VStr "p3") (Some "admin")
         fresh_world).

Definition row_admin : UserRow :=
  {| row_id := 1; row_name := "R"; row_email := "r@x.com";
     row_password := Bcrypt.hash sample_eksblowfish "p3" 10 sample_salt;
     row_role := "admin";
     row_created_at := 1700000000000; row_updated_at := 1700000000000 |}.

(** The world after a second sign-up with the email of "A" was refused. *)
Definition world_after_duplicate : World :=
  with_log error
    "Error creating the user: Error: User with this email already exists"
    world_with_a.

(** An email with a NUL byte after its first letter. *)
Definition email_with_nul : string := String "a" (String Ascii.zero "@x.com").

(** The world of "A" with a salt available for one more sign-up. *)
Definition world_with_a_ready : World :=
  with_entropy [sample_salt] world_with_a.

(** A validator that accepts a body exactly when [name], [email] and
    [password] are strings, and a formatter that names no field. *)
Definition sample_safeParse (body : obj) : SafeParseResult unit :=
  match body !! "name", body !! "email", body !! "password" with
  | Some (VStr _), Some (VStr _), Some (VStr _) => ParseSuccess body
  | _, _, _ => ParseFailure tt
  end.

Definition sample_format (_ : unit) : string := "invalid input".

Definition sample_body : obj :=
  <[ "name" := VStr "A" ]> (<[ "email" := VStr "a@x.com" ]>
    {[ "password" := VStr "p1" ]}).

(** A second sign-up request with the email of "A". *)
Definition duplicate_body : obj :=
  <[ "name" := VStr "B" ]> (<[ "email" := VStr "a@x.com" ]>
    {[ "password" := VStr "p2" ]}).

(** Two passwords of 73 bytes that differ in their last byte only. *)
Definition long_prefix : string :=
  "aaaaaaaaaaaaaaaaaaaaaaaaaaaaaaaaaaaaaaaaaaaaaaaaaaaaaaaaaaaaaaaaaaaaaaaa".
Definition long_password_b : string := long_prefix +:+ "b".
Definition long_password_c : string := long_prefix +:+ "c".

(** ** Properties of the hashing envelope *)

Section BcryptFacts.

Variable eksblowfish : string -> string -> string.

Lemma string_take_app (a b : string) :
  Bcrypt.string_take (String.length a) (a +:+ b) = a.
Proof. induction a as [|c a IH]; simpl; [by destruct b | by rewrite IH]. Qed.

Lemma string_length_app (a b : string) :
  String.length (a +:+ b) = (String.length a + String.length b)%nat.
Proof. induction a as [|c a IH]; simpl; [done | by rewrite IH]. Qed.

Lemma string_eqb_app (a x y : string) :
  String.eqb (a +:+ x) (a +:+ y) = String.eqb x y.
Proof.
  induction a as [|c a IH]; simpl; [done |].
  by rewrite Ascii.eqb_refl.
Qed.

(** The setting of cost 10, as [hashPassword] asks for it. *)
Lemma gen_salt_10 (s : Bcrypt.salt) :
  Bcrypt.gen_salt 10 s = "$2b$10$" +:+ Bcrypt.salt_chars s.
Proof. reflexivity. Qed.

Lemma gen_salt_10_length (s : Bcrypt.salt) :
  String.length (Bcrypt.gen_salt 10 s) = Bcrypt.setting_length.
Proof.
  rewrite gen_salt_10, string_length_app, Bcrypt.salt_chars_length.
  reflexivity.
Qed.

Lemma string_take_all (a : string) :
  Bcrypt.string_take (String.length a) a = a.
Proof. induction a as [|c a IH]; simpl; [done | by rewrite IH]. Qed.

Lemma take_gen_salt_10 (s : Bcrypt.salt) :
  Bcrypt.string_take Bcrypt.setting_length (Bcrypt.gen_salt 10 s)
  = Bcrypt.gen_salt 10 s.
Proof. rewrite <- (gen_salt_10_length s). apply string_take_all. Qed.

(** A digest is its setting followed by the checksum of the first 72
    bytes of the password. *)
Lemma hash_unfold (p : string) (s : Bcrypt.salt) :
  Bcrypt.hash eksblowfish p 10 s
  = Bcrypt.gen_salt 10 s
    +:+ eksblowfish (Bcrypt.gen_salt 10 s)
          (Bcrypt.string_take Bcrypt.key_bytes p).
Proof. unfold Bcrypt.hash, Bcrypt.crypt. by rewrite take_gen_salt_10. Qed.

(** A digest starts with the setting it was computed under. *)
Lemma hash_setting (p : string) (s : Bcrypt.salt) :
  Bcrypt.string_take Bcrypt.setting_length (Bcrypt.hash eksblowfish p 10 s)
  = Bcrypt.gen_salt 10 s.
Proof.
  rewrite hash_unfold.
  rewrite <- (gen_salt_10_length s) at 1.
  apply string_take_app.
Qed.

Lemma valid_salt_hash (p : string) (s : Bcrypt.salt) :
  Bcrypt.valid_salt (Bcrypt.hash eksblowfish p 10 s) = true.
Proof.
  rewrite hash_unfold, gen_salt_10.
  generalize (eksblowfish ("$2b$10$" +:+ Bcrypt.salt_chars s)
                (Bcrypt.string_take Bcrypt.key_bytes p)).
  intros checksum.
  change (("$2b$10$" +:+ Bcrypt.salt_chars s) +:+ checksum)
    with (String "$" (String "2" (String "b" (String "$" (String "1"
           (String "0" (String "$" (Bcrypt.salt_chars s +:+ checksum)))))))).
  cbn [Bcrypt.valid_salt].
  rewrite string_length_app, Bcrypt.salt_chars_length. reflexivity.
Qed.

(** Verifying any candidate against a digest compares the two checksums
    under the digest's setting. *)
Lemma compare_hash (q p : string) (s : Bcrypt.salt) :
  Bcrypt.compare eksblowfish q (Bcrypt.hash eksblowfish p 10 s)
  = String.eqb
      (eksblowfish (Bcrypt.gen_salt 10 s)
         (Bcrypt.string_take Bcrypt.key_bytes q))
      (eksblowfish (Bcrypt.gen_salt 10 s)
         (Bcrypt.string_take Bcrypt.key_bytes p)).
Proof.
  unfold Bcrypt.compare. rewrite valid_salt_hash.
  unfold Bcrypt.crypt at 1. rewrite hash_setting, hash_unfold.
  apply string_eqb_app.
Qed.

Lemma compare_hash_same (p : string) (s : Bcrypt.salt) :
  Bcrypt.compare eksblowfish p (Bcrypt.hash eksblowfish p 10 s) = true.
Proof. rewrite compare_hash. apply String.eqb_refl. Qed.

Lemma compare_hash_same_key (q p : string) (s : Bcrypt.salt) :
  Bcrypt.string_take Bcrypt.key_bytes q
  = Bcrypt.string_take Bcrypt.key_bytes p ->
  Bcrypt.compare eksblowfish q (Bcrypt.hash eksblowfish p 10 s) = true.
Proof. intros E. rewrite compare_hash, E. apply String.eqb_refl. Qed.

End BcryptFacts.

(** ** Properties of the services *)

Section ServiceFacts.

Variable eksblowfish : string -> string -> string.

Ltac run_service :=
  unfold createUser, authenticateUser, getAllUsers, hashPassword,
    comparePassword, bcrypt_hash, bcrypt_compare, db_select, db_insert,
    logger_info, logger_error, log_entry, try_catch, bind, ret, throw.

(** *** The lookup by email *)

Lemma drizzle_eq_email (email : string) (r : UserRow) :
  drizzle_eq users_email (VStr email) r = true <-> row_email r = email.
Proof.
  unfold drizzle_eq. simpl. rewrite bool_decide_eq_true.
  split; [by intros [= ->] | by intros ->].
Qed.

Lemma lookup_unknown_email (email : string) (rows : list UserRow) :
  (forall r, r ∈ rows -> row_email r <> email) ->
  List.filter (drizzle_eq users_email (VStr email)) rows = [].
Proof.
  induction rows as [|r rows IH]; intros Hnone; cbn [List.filter]; [done |].
  destruct (drizzle_eq users_email (VStr email) r) eqn:E.
  - apply drizzle_eq_email in E. exfalso. apply (Hnone r); [left | done].
  - apply IH. intros r' Hr'. apply Hnone. by right.
Qed.

Lemma lookup_known_email (email : string) (rows : list UserRow) (r : UserRow) :
  r ∈ rows -> row_email r = email ->
  exists r' rest,
    List.filter (drizzle_eq users_email (VStr email)) rows = r' :: rest
    /\ r' ∈ rows /\ row_email r' = email.
Proof.
  intros Hin Hr.
  assert (Hf : In r (List.filter (drizzle_eq users_email (VStr email)) rows)).
  { apply filter_In. split; [by apply list_elem_of_In |].
    by apply drizzle_eq_email. }
  destruct (List.filter (drizzle_eq users_email (VStr email)) rows)
    as [|r' rest] eqn:E; [done |].
  exists r', rest. split; [done |].
  assert (Hr' : In r' (List.filter (drizzle_eq users_email (VStr email)) rows))
    by (rewrite E; by left).
  apply filter_In in Hr' as [Hr'in Hr'eq].
  split; [by apply list_elem_of_In | by apply drizzle_eq_email].
Qed.

Lemma lookup_first_matches (email : string) (rows rest : list UserRow)
    (r : UserRow) :
  List.filter (drizzle_eq users_email (VStr email)) rows = r :: rest ->
  r ∈ rows /\ row_email r = email.
Proof.
  intros E.
  assert (Hr : In r (List.filter (drizzle_eq users_email (VStr email)) rows))
    by (rewrite E; by left).
  apply filter_In in Hr as [Hin Heq].
  split; [by apply list_elem_of_In | by apply drizzle_eq_email].
Qed.

(** *** Fields of the objects the queries build *)

Lemma created_columns_dom (r : UserRow) :
  dom (project created_columns r)
  = ({[ "id"; "name"; "email"; "role"; "created_at" ]} : gset string).
Proof. simpl. rewrite !dom_insert_L, dom_empty_L. set_solver. Qed.

Lemma listed_columns_dom (r : UserRow) :
  dom (project listed_columns r)
  = ({[ "id"; "email"; "name"; "role"; "created_at"; "updated_at" ]}
      : gset string).
Proof. simpl. rewrite !dom_insert_L, dom_empty_L. set_solver. Qed.

Lemma all_columns_password (r : UserRow) :
  prop (project all_columns r) "password" = VStr (row_password r).
Proof. reflexivity. Qed.

Lemma created_columns_email (r : UserRow) :
  prop (project created_columns r) "email" = VStr (row_email r).
Proof. reflexivity. Qed.

(** *** The password wrappers *)

Lemma hashPassword_string (p : string) (w : World) :
  hashPassword eksblowfish (VStr p) w =
    match entropy w with
    | s :: rest =>
        (Returns (Bcrypt.hash eksblowfish p 10 s), with_entropy rest w)
    | [] =>
        (Throws (Error "Error hashing the password"),
         with_log error
           "Error hashing the password: Error: salt generation failed" w)
    end.
Proof. run_service. by destruct (entropy w). Qed.

Lemma hashPassword_returns (password : jsval) (w w' : World) (d : string) :
  hashPassword eksblowfish password w = (Returns d, w') ->
  exists p s rest,
    password = VStr p /\ entropy w = s :: rest
    /\ d = Bcrypt.hash eksblowfish p 10 s /\ w' = with_entropy rest w.
Proof.
  run_service.
  destruct password; try discriminate.
  destruct (entropy w) as [|s0 rest] eqn:E; [discriminate |].
  intros [= <- <-]. by exists s, s0, rest.
Qed.

Lemma hashPassword_users (password : jsval) (w : World) :
  users (snd (hashPassword eksblowfish password w)) = users w.
Proof.
  run_service. destruct password; try reflexivity.
  by destruct (entropy w).
Qed.

Lemma comparePassword_strings (p d : string) (w : World) :
  comparePassword eksblowfish (VStr p) (VStr d) w
  = (Returns (Bcrypt.compare eksblowfish p d), w).
Proof. reflexivity. Qed.

Lemma comparePassword_users (password hashed : jsval) (w : World) :
  users (snd (comparePassword eksblowfish password hashed w)) = users w.
Proof. run_service. by destruct password, hashed. Qed.

Lemma comparePassword_returns (password hashed : jsval) (w w' : World)
    (b : bool) :
  comparePassword eksblowfish password hashed w = (Returns b, w') ->
  exists p d,
    password = VStr p /\ hashed = VStr d
    /\ b = Bcrypt.compare eksblowfish p d /\ w' = w.
Proof.
  run_service. destruct password, hashed; try discriminate.
  intros [= <- <-]. by eexists _, _.
Qed.

Lemma comparePassword_throws (password hashed : jsval) (w w' : World)
    (e : JsError) :
  comparePassword eksblowfish password hashed w = (Throws e, w') ->
  e = Error "Error comparing the password"
  /\ exists e0, bcrypt_compare eksblowfish password hashed w = (Throws e0, w).
Proof.
  run_service. destruct password, hashed; try discriminate;
    intros [= <- <-]; (split; [reflexivity | by eexists]).
Qed.

(** *** The lookup by email, as both services issue it *)

Lemma lookup_by_email_run (email : string) (w : World) :
  db_select all_columns (Some (drizzle_eq users_email (VStr email)))
    (Some 1%nat) w
  = match List.filter (drizzle_eq users_email (VStr email)) (users w) with
    | r :: _ => (Returns [project all_columns r], w)
    | [] =>
        if has_nul email then (Throws store_rejection, w) else (Returns [], w)
    end.
Proof.
  unfold db_select.
  destruct (List.filter (drizzle_eq users_email (VStr email)) (users w))
    as [|r rest]; [| reflexivity].
  cbn. by destruct (has_nul email).
Qed.

Lemma lookup_resolves_unknown (email : string) (w : World) :
  List.filter (drizzle_eq users_email (VStr email)) (users w) = [] ->
  lookup_resolves email w = true ->
  has_nul email = false.
Proof.
  unfold lookup_resolves, lookup_by_email. rewrite lookup_by_email_run.
  intros ->. by destruct (has_nul email).
Qed.

Lemma lookup_resolves_known (email : string) (w : World) (r : UserRow) :
  r ∈ users w -> row_email r = email -> lookup_resolves email w = true.
Proof.
  intros Hin Hr.
  destruct (lookup_known_email email (users w) r Hin Hr)
    as (r' & rest & E & _ & _).
  unfold lookup_resolves, lookup_by_email.
  by rewrite lookup_by_email_run, E.
Qed.

Ltac run_lookup :=
  unfold createUser, authenticateUser, try_catch, bind;
  rewrite lookup_by_email_run.

(** *** [createUser] *)

Lemma createUser_taken (name email : string) (password : jsval)
    (role : option string) (w : World) (r : UserRow) (rest : list UserRow) :
  List.filter (drizzle_eq users_email (VStr email)) (users w) = r :: rest ->
  createUser eksblowfish name email password role w
  = (Throws (Error "User with this email already exists"),
     with_log error
       "Error creating the user: Error: User with this email already exists"
       w).
Proof. intros E. run_lookup. by rewrite E. Qed.

Lemma createUser_lookup_rejected (name email : string) (password : jsval)
    (role : option string) (w : World) :
  List.filter (drizzle_eq users_email (VStr email)) (users w) = [] ->
  has_nul email = true ->
  createUser eksblowfish name email password role w
  = (Throws store_rejection,
     with_log error
       ("Error creating the user: " +:+ error_to_string store_rejection) w).
Proof. intros E Hn. run_lookup. by rewrite E, Hn. Qed.

Lemma createUser_fresh (name email p : string) (role : option string)
    (w : World) (s : Bcrypt.salt) (rest : list Bcrypt.salt) :
  List.filter (drizzle_eq users_email (VStr email)) (users w) = [] ->
  has_nul email = false ->
  entropy w = s :: rest ->
  insertable {| ins_name := name; ins_email := email;
                ins_password := Bcrypt.hash eksblowfish p 10 s;
                ins_role := role_or_default role |} = true ->
  createUser eksblowfish name email (VStr p) role w
  = (Returns (project created_columns (created_row eksblowfish name email p role s w)),
     with_log info ("User " +:+ email +:+ " created successfully")
       (with_row (created_row eksblowfish name email p role s w)
          (with_entropy rest w))).
Proof.
  intros E Hn Hs Hi. run_lookup. rewrite E, Hn. cbn.
  rewrite hashPassword_string, Hs. unfold db_insert. by rewrite Hi.
Qed.

Lemma createUser_insert_rejected (name email p : string)
    (role : option string) (w : World) (s : Bcrypt.salt)
    (rest : list Bcrypt.salt) :
  List.filter (drizzle_eq users_email (VStr email)) (users w) = [] ->
  has_nul email = false ->
  entropy w = s :: rest ->
  insertable {| ins_name := name; ins_email := email;
                ins_password := Bcrypt.hash eksblowfish p 10 s;
                ins_role := role_or_default role |} = false ->
  createUser eksblowfish name email (VStr p) role w
  = (Throws store_rejection,
     with_log error
       ("Error creating the user: " +:+ error_to_string store_rejection)
       (with_entropy rest w)).
Proof.
  intros E Hn Hs Hi. run_lookup. rewrite E, Hn. cbn.
  rewrite hashPassword_string, Hs. unfold db_insert. by rewrite Hi.
Qed.

Lemma createUser_hashing_failed (name email : string) (password : jsval)
    (role : option string) (w w1 : World) (e : JsError) :
  List.filter (drizzle_eq users_email (VStr email)) (users w) = [] ->
  has_nul email = false ->
  hashPassword eksblowfish password w = (Throws e, w1) ->
  createUser eksblowfish name email password role w
  = (Throws e,
     with_log error ("Error creating the user: " +:+ error_to_string e) w1).
Proof. intros E Hn Hh. run_lookup. rewrite E, Hn. cbn. by rewrite Hh. Qed.

Lemma hashPassword_throws (password : jsval) (w w1 : World) (e : JsError) :
  hashPassword eksblowfish password w = (Throws e, w1) ->
  e = Error "Error hashing the password" /\ users w1 = users w.
Proof.
  intros H. pose proof (hashPassword_users password w) as Hu.
  rewrite H in Hu. split; [| done].
  revert H. run_service. destruct password; try by intros [= <- _].
  destruct (entropy w); [by intros [= <- _] | discriminate].
Qed.

Lemma createUser_returns (name email : string) (password : jsval)
    (role : option string) (w w' : World) (u : obj) :
  createUser eksblowfish name email password role w = (Returns u, w') ->
  exists p s rest,
    password = VStr p /\ entropy w = s :: rest
    /\ List.filter (drizzle_eq users_email (VStr email)) (users w) = []
    /\ u = project created_columns (created_row eksblowfish name email p role s w)
    /\ users w' = (users w ++ [created_row eksblowfish name email p role s w])%list.
Proof.
  intros H.
  destruct (List.filter (drizzle_eq users_email (VStr email)) (users w))
    as [|r0 rest0] eqn:E.
  2: { by rewrite (createUser_taken _ _ _ _ _ _ _ E) in H. }
  destruct (has_nul email) eqn:Hn.
  { by rewrite (createUser_lookup_rejected _ _ _ _ _ E Hn) in H. }
  destruct (hashPassword eksblowfish password w) as [[d|e] w1] eqn:Hh.
  2: { by rewrite (createUser_hashing_failed _ _ _ _ _ _ _ E Hn Hh) in H. }
  apply hashPassword_returns in Hh as (p & s & rest & -> & Hs & -> & ->).
  destruct (insertable {| ins_name := name; ins_email := email;
                          ins_password := Bcrypt.hash eksblowfish p 10 s;
                          ins_role := role_or_default role |}) eqn:Hi.
  2: { by rewrite (createUser_insert_rejected _ _ _ _ _ _ _ E Hn Hs Hi) in H. }
  rewrite (createUser_fresh _ _ _ _ _ _ _ E Hn Hs Hi) in H.
  injection H as <- <-. by exists p, s, rest.
Qed.

(** Whenever [createUser] throws, nothing was stored, the error was logged,
    and it is the duplicate-user error exactly when the lookup found a
    row. *)
Lemma createUser_throws (name email : string) (password : jsval)
    (role : option string) (w w' : World) (e : JsError) :
  createUser eksblowfish name email password role w = (Throws e, w') ->
  users w' = users w
  /\ last (logs w') = Some (failure_log "Error creating the user" e)
  /\ (e = Error "User with this email already exists"
      <-> List.filter (drizzle_eq users_email (VStr email)) (users w) <> []).
Proof.
  destruct (List.filter (drizzle_eq users_email (VStr email)) (users w))
    as [|r0 rest0] eqn:E.
  2: { rewrite (createUser_taken _ _ _ _ _ _ _ E). intros [= <- <-].
       split; [reflexivity |]. split; [apply last_snoc | done]. }
  destruct (has_nul email) eqn:Hn.
  { rewrite (createUser_lookup_rejected _ _ _ _ _ E Hn). intros [= <- <-].
    split; [reflexivity |]. split; [apply last_snoc | done]. }
  destruct (hashPassword eksblowfish password w) as [[d|e1] w1] eqn:Hh.
  2: { rewrite (createUser_hashing_failed _ _ _ _ _ _ _ E Hn Hh).
       apply hashPassword_throws in Hh as [-> Hu]. intros [= <- <-].
       split; [exact Hu |]. split; [apply last_snoc | done]. }
  apply hashPassword_returns in Hh as (p & s & rest & -> & Hs & -> & ->).
  destruct (insertable {| ins_name := name; ins_email := email;
                          ins_password := Bcrypt.hash eksblowfish p 10 s;
                          ins_role := role_or_default role |}) eqn:Hi.
  { by rewrite (createUser_fresh _ _ _ _ _ _ _ E Hn Hs Hi). }
  rewrite (createUser_insert_rejected _ _ _ _ _ _ _ E Hn Hs Hi).
  intros [= <- <-].
  split; [reflexivity |]. split; [apply last_snoc | done].
Qed.

Lemma createUser_users (name email : string) (password : jsval)
    (role : option string) (w : World) :
  users (snd (createUser eksblowfish name email password role w)) = users w
  \/ exists r,
       users (snd (createUser eksblowfish name email password role w))
       = (users w ++ [r])%list.
Proof.
  destruct (createUser eksblowfish name email password role w)
    as [[u|e] w'] eqn:H.
  - right. apply createUser_returns in H as (p & s & rest & _ & _ & _ & _ & Hu).
    by eexists.
  - left. by apply createUser_throws in H as (Hu & _).
Qed.

(** *** [authenticateUser] *)

Lemma authenticateUser_unknown (email : string) (password : jsval)
    (w : World) :
  List.filter (drizzle_eq users_email (VStr email)) (users w) = [] ->
  has_nul email = false ->
  authenticateUser eksblowfish email password w
  = (Throws (Error "Invalid email or password"),
     with_log error invalid_credentials_log w).
Proof. intros E Hn. run_lookup. by rewrite E, Hn. Qed.

Lemma authenticateUser_lookup_rejected (email : string) (password : jsval)
    (w : World) :
  List.filter (drizzle_eq users_email (VStr email)) (users w) = [] ->
  has_nul email = true ->
  authenticateUser eksblowfish email password w
  = (Throws store_rejection,
     with_log error
       ("Error authenticating the user: " +:+ error_to_string store_rejection)
       w).
Proof. intros E Hn. run_lookup. by rewrite E, Hn. Qed.

Lemma authenticateUser_known (email p : string) (w : World) (r : UserRow)
    (rest : list UserRow) :
  List.filter (drizzle_eq users_email (VStr email)) (users w) = r :: rest ->
  authenticateUser eksblowfish email (VStr p) w
  = if Bcrypt.compare eksblowfish p (row_password r)
    then (Returns (without_password (project all_columns r)),
          with_log info ("User " +:+ email +:+ " authenticated successfully")
            w)
    else (Throws (Error "Invalid email or password"),
          with_log error invalid_credentials_log w).
Proof.
  intros E. run_lookup. rewrite E. cbn.
  change (prop _ "password") with (VStr (row_password r)).
  rewrite comparePassword_strings.
  by destruct (Bcrypt.compare eksblowfish p (row_password r)).
Qed.

Lemma authenticateUser_returns (email : string) (password : jsval)
    (w w' : World) (u : obj) :
  authenticateUser eksblowfish email password w = (Returns u, w') ->
  exists p r rest,
    password = VStr p
    /\ List.filter (drizzle_eq users_email (VStr email)) (users w) = r :: rest
    /\ Bcrypt.compare eksblowfish p (row_password r) = true
    /\ u = without_password (project all_columns r)
    /\ users w' = users w.
Proof.
  intros H.
  destruct (List.filter (drizzle_eq users_email (VStr email)) (users w))
    as [|r rest] eqn:E.
  { destruct (has_nul email) eqn:Hn.
    - by rewrite (authenticateUser_lookup_rejected _ _ _ E Hn) in H.
    - by rewrite (authenticateUser_unknown _ _ _ E Hn) in H. }
  destruct password as [| | | |p|];
    try (revert H; run_lookup; rewrite E; discriminate).
  rewrite (authenticateUser_known _ _ _ _ _ E) in H.
  destruct (Bcrypt.compare eksblowfish p (row_password r)) eqn:C;
    [| discriminate].
  injection H as <- <-. by exists p, r, rest.
Qed.

Lemma authenticateUser_users (email : string) (password : jsval)
    (w : World) :
  users (snd (authenticateUser eksblowfish email password w)) = users w.
Proof.
  destruct (List.filter (drizzle_eq users_email (VStr email)) (users w))
    as [|r rest] eqn:E.
  - destruct (has_nul email) eqn:Hn.
    + by rewrite (authenticateUser_lookup_rejected _ _ _ E Hn).
    + by rewrite (authenticateUser_unknown _ _ _ E Hn).
  - run_lookup. rewrite E. cbn.
    change (prop _ "password") with (VStr (row_password r)).
    destruct password; try reflexivity.
    rewrite comparePassword_strings. by destruct (Bcrypt.compare _ _ _).
Qed.

Lemma getAllUsers_run (w : World) :
  getAllUsers w = (Returns (map (project listed_columns) (users w)), w).
Proof. reflexivity. Qed.

End ServiceFacts.

(** ** Properties of the sign-up controller *)

Section ControllerFacts.

Context {ZodError : Type}.
Variable safeParse : obj -> SafeParseResult ZodError.
Variable format : ZodError -> string.

Lemma signup_catch_duplicate (w : World) :
  signup_catch (Error "User with this email already exists") w
  = (Returns (Sent 409 {[ "error" := VStr "Email already exists" ]}),
     with_log error "Sign-up error" w).
Proof. reflexivity. Qed.

Lemma signup_invalid_body (body : obj) (err : ZodError) (w : World) :
  safeParse body = ParseFailure err ->
  signup safeParse format body w
  = (Returns (Sent 400
                (<[ "error" := VStr "Validation Failded" ]>
                   {[ "details" := VStr (format err) ]})), w).
Proof. intros E. unfold signup, try_catch. by rewrite E. Qed.

(** Whatever the request, the handler never answers 201: the only
    statuses it can send are 400 and 409. *)
Lemma signup_never_created (body : obj) (w : World) (answer : obj) :
  fst (signup safeParse format body w) <> Returns (Sent 201 answer).
Proof.
  unfold signup, try_catch.
  destruct (safeParse body) as [data|err]; simpl; discriminate.
Qed.

Lemma signup_users (body : obj) (w : World) :
  users (snd (signup safeParse format body w)) = users w.
Proof.
  unfold signup, try_catch.
  by destruct (safeParse body) as [data|err].
Qed.

Lemma signup_valid_body_run (body data : obj) (w : World) :
  safeParse body = ParseSuccess data ->
  signup safeParse format body w
  = (Returns (Forwarded (TypeError "validationResult.data is not a function")),
     with_log error "Sign-up error" w).
Proof. intros E. unfold signup, try_catch. by rewrite E. Qed.

(** C1 (sign-up answers 201 with the created user).  The specification
    promises, for a body that passes validation and an unused email,
    status 201 and the fields id, name, email, role, created_at of the new
    user.  The handler as written stops before it reaches the service: for
    every body that passes validation it calls [validationResult.data] as
    a function, the resulting TypeError goes to [next], no response is
    sent and no user is stored. *)
Theorem signup_valid_body_forwards_type_error
    (body data : obj) (w : World) :
  safeParse body = ParseSuccess data ->
  signup safeParse format body w
  = (Returns (Forwarded (TypeError "validationResult.data is not a function")),
     with_log error "Sign-up error" w)
  /\ users (snd (signup safeParse format body w)) = users w.
Proof.
  intros E. split; [| apply signup_users].
  unfold signup, try_catch. by rewrite E.
Qed.

End ControllerFacts.

(** ** The specification's properties of the services *)

Section ServiceProperties.

Variable eksblowfish : string -> string -> string.

(** C2 (duplicate email), as the code behaves.  In every state whose
    table holds a user with email [e], [createUser] called with [e] fails
    with the error "User with this email already exists" and the table is
    left as it was (no row is added).  At the HTTP boundary that error is
    not what decides the response: a sign-up request that passes validation
    and reuses [e] never reaches [createUser], the handler hands a
    TypeError to [next] and answers no 409. *)
Theorem createUser_duplicate_email
    (name email : string) (password : jsval) (role : option string)
    (w : World) (r : UserRow)
    (ZodError : Type) (safeParse : obj -> SafeParseResult ZodError)
    (format : ZodError -> string) (body data : obj) :
  r ∈ users w -> row_email r = email ->
  safeParse body = ParseSuccess data ->
  prop body "email" = VStr email ->
  fst (createUser eksblowfish name email password role w)
    = Throws (Error "User with this email already exists")
  /\ users (snd (createUser eksblowfish name email password role w))
     = users w
  /\ fst (signup safeParse format body w)
     = Returns (Forwarded (TypeError "validationResult.data is not a function"))
  /\ (forall answer,
        fst (signup safeParse format body w) <> Returns (Sent 409 answer))
  /\ users (snd (signup safeParse format body w)) = users w.
Proof.
  intros Hin Hr Hvalid _.
  destruct (lookup_known_email email (users w) r Hin Hr)
    as (r' & rest & E & _ & _).
  rewrite (createUser_taken eksblowfish _ _ _ _ _ _ _ E).
  rewrite (signup_valid_body_run safeParse format _ _ _ Hvalid).
  repeat split. discriminate.
Qed.

(** C3, as amended (enumeration resistance).  Take two failing sign-ins:
    one whose lookup resolves and whose email matches no stored user, one
    whose email matches a stored user (the row the lookup returns) but
    whose password fails verification against that row's digest.  Both
    fail with the same error, name "Error" and message "Invalid email or
    password", and both leave the same line in the log. *)
Theorem authenticateUser_failures_identical
    (email1 : string) (password1 : jsval) (w1 : World)
    (email2 : string) (password2 : jsval) (w2 : World)
    (r : UserRow) (rest : list UserRow) :
  (forall r1, r1 ∈ users w1 -> row_email r1 <> email1) ->
  lookup_resolves email1 w1 = true ->
  List.filter (drizzle_eq users_email (VStr email2)) (users w2) = r :: rest ->
  fst (comparePassword eksblowfish password2 (VStr (row_password r)) w2)
    = Returns false ->
  fst (authenticateUser eksblowfish email1 password1 w1)
    = Throws (Error "Invalid email or password")
  /\ fst (authenticateUser eksblowfish email2 password2 w2)
     = Throws (Error "Invalid email or password")
  /\ fst (authenticateUser eksblowfish email1 password1 w1)
     = fst (authenticateUser eksblowfish email2 password2 w2)
  /\ logs (snd (authenticateUser eksblowfish email1 password1 w1))
     = (logs w1 ++ [mkLogEntry error invalid_credentials_log])%list
  /\ logs (snd (authenticateUser eksblowfish email2 password2 w2))
     = (logs w2 ++ [mkLogEntry error invalid_credentials_log])%list.
Proof.
  intros Hnone Hres E Hcmp.
  pose proof (lookup_unknown_email _ _ Hnone) as E1.
  rewrite (authenticateUser_unknown eksblowfish _ _ _ E1
             (lookup_resolves_unknown _ _ E1 Hres)).
  destruct (comparePassword eksblowfish password2 (VStr (row_password r)) w2)
    as [o w2'] eqn:C.
  simpl in Hcmp. subst o.
  apply comparePassword_returns in C as (p & d & -> & [= <-] & Hb & _).
  rewrite (authenticateUser_known eksblowfish _ _ _ _ _ E), <- Hb.
  repeat split.
Qed.

(** C4 (sign-up then sign-in).  Whenever no stored user has the email and
    [createUser] succeeds, [authenticateUser] with the same email and
    password succeeds on the resulting state, and returns the user that
    was just created. *)
Theorem createUser_then_authenticateUser
    (name email : string) (password : jsval) (role : option string)
    (w w' : World) (u : obj) :
  (forall r, r ∈ users w -> row_email r <> email) ->
  createUser eksblowfish name email password role w = (Returns u, w') ->
  exists safeUser w'',
    authenticateUser eksblowfish email password w' = (Returns safeUser, w'')
    /\ safeUser !! "email" = Some (VStr email)
    /\ safeUser !! "id" = u !! "id".
Proof.
  intros _ H.
  apply createUser_returns in H
    as (p & s & rest & -> & Hs & E & -> & Hu).
  set (r := created_row eksblowfish name email p role s w) in *.
  assert (E' : List.filter (drizzle_eq users_email (VStr email)) (users w')
               = [r]).
  { rewrite Hu, List.filter_app, E. cbn [List.filter app].
    assert (Hr : drizzle_eq users_email (VStr email) r = true)
      by by apply drizzle_eq_email.
    by rewrite Hr. }
  rewrite (authenticateUser_known eksblowfish _ _ _ _ _ E').
  change (row_password r) with (Bcrypt.hash eksblowfish p 10 s).
  rewrite compare_hash_same.
  eexists _, _. repeat split.
Qed.

Lemma createUser_result_fields
    (name email : string) (password : jsval) (role : option string)
    (w w' : World) (u : obj) :
  createUser eksblowfish name email password role w = (Returns u, w') ->
  exists r,
    users w' = (users w ++ [r])%list
    /\ u = project created_columns r
    /\ dom u = ({[ "id"; "name"; "email"; "role"; "created_at" ]} : gset string)
    /\ u !! "password" = None
    /\ u !! "password_hash" = None.
Proof.
  intros H.
  apply createUser_returns in H as (p & s & rest & _ & _ & _ & -> & Hu).
  eexists. split; [exact Hu |]. split; [reflexivity |].
  split; [apply created_columns_dom |]. split; reflexivity.
Qed.

Lemma authenticateUser_result_fields
    (email : string) (password : jsval) (w w' : World) (u : obj) :
  authenticateUser eksblowfish email password w = (Returns u, w') ->
  exists r,
    r ∈ users w /\ row_email r = email
    /\ u = delete "password" (project all_columns r)
    /\ dom u = ({[ "id"; "name"; "email"; "role"; "created_at";
                   "updated_at" ]} : gset string)
    /\ u !! "password" = None.
Proof.
  intros H.
  apply authenticateUser_returns in H as (p & r & rest & _ & E & _ & -> & _).
  destruct (lookup_first_matches _ _ _ _ E) as [Hin Hr].
  exists r. split; [done |]. split; [done |]. split; [reflexivity |].
  split; [| apply lookup_delete_eq].
  unfold without_password. simpl.
  rewrite dom_delete_L, !dom_insert_L, dom_empty_L. set_solver.
Qed.

(** C5 (no password in results).  A successful [createUser] returns
    exactly the projection id, name, email, role, created_at of the row it
    inserted, so neither a password nor a password hash; a successful
    [authenticateUser] returns the stored user found by email with its
    password field removed. *)
Theorem service_results_exclude_password :
  (forall name email password role w w' u,
      createUser eksblowfish name email password role w = (Returns u, w') ->
      exists r,
        users w' = (users w ++ [r])%list
        /\ u = project created_columns r
        /\ dom u
           = ({[ "id"; "name"; "email"; "role"; "created_at" ]} : gset string)
        /\ u !! "password" = None
        /\ u !! "password_hash" = None)
  /\ (forall email password w w' u,
        authenticateUser eksblowfish email password w = (Returns u, w') ->
        exists r,
          r ∈ users w /\ row_email r = email
          /\ u = delete "password" (project all_columns r)
          /\ dom u = ({[ "id"; "name"; "email"; "role"; "created_at";
                         "updated_at" ]} : gset string)
          /\ u !! "password" = None).
Proof.
  split.
  - intros *. apply createUser_result_fields.
  - intros *. apply authenticateUser_result_fields.
Qed.

(** C6, as amended (hash then verify).  Whenever [hashPassword p]
    returns a digest [d]: [comparePassword p d] returns true; for any
    plaintext [q], [comparePassword q d] returns, without throwing,
    whether the checksums of the first 72 bytes of [q] and of [p] under
    the setting of [d] are equal; so it returns true for every [q] that
    agrees with [p] on its first 72 bytes, distinct from [p] or not. *)
Theorem hashPassword_then_comparePassword
    (p : string) (w w' : World) (d : string) :
  hashPassword eksblowfish (VStr p) w = (Returns d, w') ->
  (forall w2, comparePassword eksblowfish (VStr p) (VStr d) w2
              = (Returns true, w2))
  /\ (forall q w2,
        comparePassword eksblowfish (VStr q) (VStr d) w2
        = (Returns
             (String.eqb
                (eksblowfish (Bcrypt.string_take Bcrypt.setting_length d)
                   (Bcrypt.string_take Bcrypt.key_bytes q))
                (eksblowfish (Bcrypt.string_take Bcrypt.setting_length d)
                   (Bcrypt.string_take Bcrypt.key_bytes p))), w2))
  /\ (forall q w2,
        Bcrypt.string_take Bcrypt.key_bytes q
        = Bcrypt.string_take Bcrypt.key_bytes p ->
        comparePassword eksblowfish (VStr q) (VStr d) w2
        = (Returns true, w2)).
Proof.
  intros H.
  apply hashPassword_returns in H as (p' & s & rest & [= <-] & _ & -> & _).
  split; [| split].
  - intros w2. by rewrite comparePassword_strings, compare_hash_same.
  - intros q w2.
    by rewrite comparePassword_strings, compare_hash, hash_setting.
  - intros q w2 Hq.
    by rewrite comparePassword_strings, (compare_hash_same_key _ _ _ _ Hq).
Qed.

(** C7 (verification does not throw).  On a plaintext and a stored digest
    (two strings), [comparePassword] never throws and touches nothing: it
    returns the verdict of the library, so [false] on a mismatch.  When
    [comparePassword] does throw, the error is "Error comparing the
    password" and the library call itself has failed; this happens, for
    instance, when the digest is missing. *)
Theorem comparePassword_throws_only_on_library_failure :
  (forall p d w,
      comparePassword eksblowfish (VStr p) (VStr d) w
      = (Returns (Bcrypt.compare eksblowfish p d), w))
  /\ (forall p d w,
        Bcrypt.compare eksblowfish p d = false ->
        comparePassword eksblowfish (VStr p) (VStr d) w = (Returns false, w))
  /\ (forall password hashed w w' e,
        comparePassword eksblowfish password hashed w = (Throws e, w') ->
        e = Error "Error comparing the password"
        /\ exists e0,
             bcrypt_compare eksblowfish password hashed w = (Throws e0, w))
  /\ (forall p w,
        fst (comparePassword eksblowfish (VStr p) VUndefined w)
        = Throws (Error "Error comparing the password")).
Proof.
  split; [| split; [| split]].
  - intros. apply comparePassword_strings.
  - intros p d w Hm. by rewrite comparePassword_strings, Hm.
  - intros *. apply comparePassword_throws.
  - reflexivity.
Qed.

(** C8 (user listing).  In every state [getAllUsers] returns, in storage
    order, one entry per stored user; each entry has exactly the fields
    id, email, name, role, created_at, updated_at, hence no password
    field. *)
Theorem getAllUsers_lists_public_fields (w : World) :
  exists entries,
    getAllUsers w = (Returns entries, w)
    /\ length entries = length (users w)
    /\ (forall i r, users w !! i = Some r ->
                    entries !! i = Some (project listed_columns r))
    /\ Forall (fun entry : obj =>
                 dom entry
                 = ({[ "id"; "email"; "name"; "role"; "created_at";
                       "updated_at" ]} : gset string)
                 /\ entry !! "password" = None) entries.
Proof.
  exists (map (project listed_columns) (users w)).
  split; [apply getAllUsers_run |]. split; [apply length_map |]. split.
  - intros i r Hi. by rewrite list_lookup_fmap, Hi.
  - apply Forall_forall. intros entry Hentry.
    apply list_elem_of_fmap in Hentry as (r & -> & _).
    split; [apply listed_columns_dom | reflexivity].
Qed.

(** C9 (rows are never updated or deleted).  [authenticateUser] and
    [getAllUsers] leave the table as it was on every call, failed or not;
    [createUser] either leaves it as it was or appends one row after the
    existing ones, which stay unchanged and in place.  The password
    wrappers and the sign-up handler do not touch the table either. *)
Theorem users_table_only_grows :
  (forall email password w,
      users (snd (authenticateUser eksblowfish email password w)) = users w)
  /\ (forall w, users (snd (getAllUsers w)) = users w)
  /\ (forall name email password role w,
        users (snd (createUser eksblowfish name email password role w))
        = users w
        \/ exists r,
             users (snd (createUser eksblowfish name email password role w))
             = (users w ++ [r])%list)
  /\ (forall password w,
        users (snd (hashPassword eksblowfish password w)) = users w)
  /\ (forall password hashed w,
        users (snd (comparePassword eksblowfish password hashed w)) = users w)
  /\ (forall (ZodError : Type) (safeParse : obj -> SafeParseResult ZodError)
             (format : ZodError -> string) body w,
        users (snd (signup safeParse format body w)) = users w).
Proof.
  split; [| split; [| split; [| split; [| split]]]].
  - intros. apply authenticateUser_users.
  - reflexivity.
  - intros. apply createUser_users.
  - intros. apply hashPassword_users.
  - intros. apply comparePassword_users.
  - intros. apply signup_users.
Qed.

(** C10 (default role).  When the argument of [createUser] has no role
    field and the call succeeds, the stored user has role "user" and so
    has the returned projection. *)
Theorem createUser_default_role
    (name email : string) (password : jsval) (w w' : World) (u : obj) :
  createUser eksblowfish name email password None w = (Returns u, w') ->
  u !! "role" = Some (VStr "user")
  /\ exists r,
       users w' = (users w ++ [r])%list
       /\ row_role r = "user"
       /\ u = project created_columns r.
Proof.
  intros H.
  apply createUser_returns in H as (p & s & rest & _ & _ & _ & -> & Hu).
  split; [reflexivity |]. by eexists.
Qed.

End ServiceProperties.

(** ** The model at work on the sample data *)

Example world_with_a_users : users world_with_a = [row_a].
Proof. vm_compute. reflexivity. Qed.

Example signin_after_signup :
  fst (authenticateUser sample_eksblowfish "a@x.com" (VStr "p1") world_with_a)
  = Returns (without_password (project all_columns row_a)).
Proof. vm_compute. reflexivity. Qed.

Example signin_wrong_password :
  fst (authenticateUser sample_eksblowfish "a@x.com" (VStr "wrong") world_with_a)
  = Throws (Error "Invalid email or password").
Proof. vm_compute. reflexivity. Qed.

Example signin_missing_password :
  fst (authenticateUser sample_eksblowfish "a@x.com" VUndefined world_with_a)
  = Throws (Error "Error comparing the password").
Proof. vm_compute. reflexivity. Qed.

Example malformed_digest_is_a_mismatch :
  comparePassword sample_eksblowfish (VStr "p1") (VStr "not a digest") fresh_world
  = (Returns false, fresh_world).
Proof. reflexivity. Qed.

Example signup_sample_body :
  fst (signup sample_safeParse sample_format sample_body fresh_world)
  = Returns (Forwarded (TypeError "validationResult.data is not a function")).
Proof. vm_compute. reflexivity. Qed.

(** C1, on the sample: a valid body and an empty table, hence an unused
    email; the handler forwards the TypeError and stores nothing. *)
Lemma signup_valid_body_forwards_type_error_witness :
  signup sample_safeParse sample_format sample_body fresh_world
  = (Returns (Forwarded (TypeError "validationResult.data is not a function")),
     with_log error "Sign-up error" fresh_world)
  /\ users (snd (signup sample_safeParse sample_format sample_body fresh_world))
     = users fresh_world.
Proof.
  apply (signup_valid_body_forwards_type_error sample_safeParse sample_format
           sample_body sample_body fresh_world).
  vm_compute. reflexivity.
Defined.

(** C2, on the sample: a second sign-up with the email of the stored user. *)
Lemma createUser_duplicate_email_witness :
  fst (createUser sample_eksblowfish "B" "a@x.com" (VStr "p2") None world_with_a)
    = Throws (Error "User with this email already exists")
  /\ users (snd (createUser sample_eksblowfish "B" "a@x.com" (VStr "p2") None
                   world_with_a))
     = users world_with_a
  /\ fst (signup sample_safeParse sample_format duplicate_body world_with_a)
     = Returns (Forwarded (TypeError "validationResult.data is not a function"))
  /\ (forall answer,
        fst (signup sample_safeParse sample_format duplicate_body world_with_a)
        <> Returns (Sent 409 answer))
  /\ users (snd (signup sample_safeParse sample_format duplicate_body
                   world_with_a))
     = users world_with_a.
Proof.
  apply (createUser_duplicate_email sample_eksblowfish "B" "a@x.com"
           (VStr "p2") None world_with_a row_a
           unit sample_safeParse sample_format duplicate_body duplicate_body).
  - vm_compute. left.
  - reflexivity.
  - vm_compute. reflexivity.
  - vm_compute. reflexivity.
Defined.

(** C3, as the specification states it, fails: an email with a NUL byte
    matches no stored user, yet the sign-in does not fail with "Invalid
    email or password" but with the error of the rejected lookup, which is
    not the error a wrong password gets. *)
Lemma authenticateUser_rejected_lookup_differs :
  (forall r1, r1 ∈ users fresh_world -> row_email r1 <> email_with_nul)
  /\ List.filter (drizzle_eq users_email (VStr "a@x.com")) (users world_with_a)
     = [row_a]
  /\ fst (comparePassword sample_eksblowfish (VStr "wrong")
            (VStr (row_password row_a)) world_with_a)
     = Returns false
  /\ fst (authenticateUser sample_eksblowfish email_with_nul (VStr "p1")
            fresh_world)
     = Throws store_rejection
  /\ fst (authenticateUser sample_eksblowfish "a@x.com" (VStr "wrong")
            world_with_a)
     = Throws (Error "Invalid email or password")
  /\ fst (authenticateUser sample_eksblowfish email_with_nul (VStr "p1")
            fresh_world)
     <> fst (authenticateUser sample_eksblowfish "a@x.com" (VStr "wrong")
               world_with_a).
Proof.
  split; [intros r1 Hr1; simpl in Hr1; inversion Hr1 |].
  split; [vm_compute; reflexivity |].
  split; [vm_compute; reflexivity |].
  split; [vm_compute; reflexivity |].
  split; [vm_compute; reflexivity |].
  vm_compute. discriminate.
Qed.

(** C3 as amended, on the sample: an unknown email against the empty table,
    and the stored email with a wrong password. *)
Lemma authenticateUser_failures_identical_witness :
  fst (authenticateUser sample_eksblowfish "nobody@x.com" (VStr "p1") fresh_world)
    = Throws (Error "Invalid email or password")
  /\ fst (authenticateUser sample_eksblowfish "a@x.com" (VStr "wrong") world_with_a)
     = Throws (Error "Invalid email or password")
  /\ fst (authenticateUser sample_eksblowfish "nobody@x.com" (VStr "p1") fresh_world)
     = fst (authenticateUser sample_eksblowfish "a@x.com" (VStr "wrong") world_with_a)
  /\ logs (snd (authenticateUser sample_eksblowfish "nobody@x.com" (VStr "p1")
                  fresh_world))
     = (logs fresh_world ++ [mkLogEntry error invalid_credentials_log])%list
  /\ logs (snd (authenticateUser sample_eksblowfish "a@x.com" (VStr "wrong")
                  world_with_a))
     = (logs world_with_a ++ [mkLogEntry error invalid_credentials_log])%list.
Proof.
  apply (authenticateUser_failures_identical sample_eksblowfish
           "nobody@x.com" (VStr "p1") fresh_world
           "a@x.com" (VStr "wrong") world_with_a row_a []).
  - intros r1 Hr1. simpl in Hr1. inversion Hr1.
  - vm_compute. reflexivity.
  - vm_compute. reflexivity.
  - vm_compute. reflexivity.
Defined.

(** C4, on the sample: sign-up on the empty table, then sign-in. *)
Lemma createUser_then_authenticateUser_witness :
  exists safeUser w'',
    authenticateUser sample_eksblowfish "a@x.com" (VStr "p1") world_with_a
    = (Returns safeUser, w'')
    /\ safeUser !! "email" = Some (VStr "a@x.com")
    /\ safeUser !! "id" = project created_columns row_a !! "id".
Proof.
  apply (createUser_then_authenticateUser sample_eksblowfish "A" "a@x.com"
           (VStr "p1") None fresh_world world_with_a
           (project created_columns row_a)).
  - intros r Hr. simpl in Hr. inversion Hr.
  - vm_compute. reflexivity.
Defined.

(** C5, on the sample: the object sign-up returned and the object sign-in
    returned. *)
Lemma service_results_exclude_password_witness :
  (exists r,
      users world_with_a = (users fresh_world ++ [r])%list
      /\ project created_columns row_a = project created_columns r
      /\ dom (project created_columns row_a)
         = ({[ "id"; "name"; "email"; "role"; "created_at" ]} : gset string)
      /\ project created_columns row_a !! "password" = None
      /\ project created_columns row_a !! "password_hash" = None)
  /\ (exists r,
        r ∈ users world_with_a /\ row_email r = "a@x.com"
        /\ without_password (project all_columns row_a)
           = delete "password" (project all_columns r)
        /\ dom (without_password (project all_columns row_a))
           = ({[ "id"; "name"; "email"; "role"; "created_at"; "updated_at" ]}
               : gset string)
        /\ without_password (project all_columns row_a) !! "password" = None).
Proof.
  split.
  - apply (proj1 (service_results_exclude_password sample_eksblowfish)
             "A" "a@x.com" (VStr "p1") None fresh_world world_with_a
             (project created_columns row_a)).
    vm_compute. reflexivity.
  - apply (proj2 (service_results_exclude_password sample_eksblowfish)
             "a@x.com" (VStr "p1") world_with_a
             (with_log info "User a@x.com authenticated successfully"
                world_with_a)
             (without_password (project all_columns row_a))).
    vm_compute. reflexivity.
Defined.

(** C6, as the specification states it, fails: two distinct passwords that
    share their first 72 bytes verify against each other's digest, whatever
    the Blowfish primitive computes. *)
Lemma long_passwords_verify_against_each_other :
  long_password_b <> long_password_c
  /\ forall eksblowfish,
       exists d w',
         hashPassword eksblowfish (VStr long_password_c) fresh_world
         = (Returns d, w')
         /\ comparePassword eksblowfish (VStr long_password_b) (VStr d) w'
            = (Returns true, w').
Proof.
  split; [discriminate |].
  intros eksblowfish.
  exists (Bcrypt.hash eksblowfish long_password_c 10 sample_salt),
         (with_entropy [] fresh_world).
  split; [reflexivity |].
  rewrite comparePassword_strings.
  rewrite compare_hash_same_key; reflexivity.
Qed.

(** C6 as amended, on the sample: the digest of "p1". *)
Lemma hashPassword_then_comparePassword_witness :
  (forall w2,
      comparePassword sample_eksblowfish (VStr "p1")
        (VStr (Bcrypt.hash sample_eksblowfish "p1" 10 sample_salt)) w2
      = (Returns true, w2))
  /\ (forall q w2,
        comparePassword sample_eksblowfish (VStr q)
          (VStr (Bcrypt.hash sample_eksblowfish "p1" 10 sample_salt)) w2
        = (Returns
             (String.eqb
                (sample_eksblowfish
                   (Bcrypt.string_take Bcrypt.setting_length
                      (Bcrypt.hash sample_eksblowfish "p1" 10 sample_salt))
                   (Bcrypt.string_take Bcrypt.key_bytes q))
                (sample_eksblowfish
                   (Bcrypt.string_take Bcrypt.setting_length
                      (Bcrypt.hash sample_eksblowfish "p1" 10 sample_salt))
                   (Bcrypt.string_take Bcrypt.key_bytes "p1"))), w2))
  /\ (forall q w2,
        Bcrypt.string_take Bcrypt.key_bytes q
        = Bcrypt.string_take Bcrypt.key_bytes "p1" ->
        comparePassword sample_eksblowfish (VStr q)
          (VStr (Bcrypt.hash sample_eksblowfish "p1" 10 sample_salt)) w2
        = (Returns true, w2)).
Proof.
  apply (hashPassword_then_comparePassword sample_eksblowfish "p1"
           fresh_world (with_entropy [] fresh_world)).
  reflexivity.
Defined.

(** C7, on the sample: a wrong password against the stored digest is a
    plain [false]. *)
Lemma comparePassword_throws_only_on_library_failure_witness :
  comparePassword sample_eksblowfish (VStr "wrong") (VStr (row_password row_a))
    world_with_a
  = (Returns false, world_with_a).
Proof.
  apply (proj1 (proj2 (comparePassword_throws_only_on_library_failure
                         sample_eksblowfish))).
  vm_compute. reflexivity.
Defined.

(** C10, on the sample: sign-up without a role. *)
Lemma createUser_default_role_witness :
  project created_columns row_a !! "role" = Some (VStr "user")
  /\ exists r,
       users world_with_a = (users fresh_world ++ [r])%list
       /\ row_role r = "user"
       /\ project created_columns row_a = project created_columns r.
Proof.
  apply (createUser_default_role sample_eksblowfish "A" "a@x.com" (VStr "p1")
           fresh_world world_with_a (project created_columns row_a)).
  vm_compute. reflexivity.
Defined.


(** ** Further properties of the services *)

Section ServiceBehaviour.

Variable eksblowfish : string -> string -> string.

Ltac unfold_service :=
  unfold createUser, authenticateUser, getAllUsers, hashPassword,
    comparePassword, bcrypt_hash, bcrypt_compare, db_select, db_insert,
    logger_info, logger_error, log_entry, try_catch, bind, ret, throw.

Ltac unfold_lookup :=
  unfold createUser, authenticateUser, try_catch, bind;
  rewrite ?lookup_by_email_run.

(** *** Helper facts *)

Lemma lookup_empty_unknown (email : string) (rows : list UserRow) :
  List.filter (drizzle_eq users_email (VStr email)) rows = [] ->
  forall r, r ∈ rows -> row_email r <> email.
Proof.
  intros E r Hin Hr.
  destruct (lookup_known_email email rows r Hin Hr) as (r' & rest & E' & _).
  congruence.
Qed.

Lemma lookup_app_other (email : string) (rows : list UserRow) (r : UserRow) :
  row_email r <> email ->
  List.filter (drizzle_eq users_email (VStr email)) (rows ++ [r])
  = List.filter (drizzle_eq users_email (VStr email)) rows.
Proof.
  intros Hne. rewrite List.filter_app. cbn [List.filter].
  destruct (drizzle_eq users_email (VStr email) r) eqn:E.
  - by apply drizzle_eq_email in E.
  - apply app_nil_r.
Qed.

Lemma lookup_unique (email : string) (rows : list UserRow) (r : UserRow) :
  NoDup (map row_email rows) -> r ∈ rows -> row_email r = email ->
  List.filter (drizzle_eq users_email (VStr email)) rows = [r].
Proof.
  intros Hnd Hin Hr. induction rows as [|r0 rows IH]; [by inversion Hin |].
  simpl in Hnd. apply NoDup_cons in Hnd as [Hfresh Hnd].
  cbn [List.filter]. apply elem_of_cons in Hin as [<- | Hin].
  - assert (E : drizzle_eq users_email (VStr email) r = true)
      by by apply drizzle_eq_email.
    rewrite E. f_equal. apply lookup_unknown_email.
    intros r' Hr' Heq. apply Hfresh.
    rewrite Hr, <- Heq. by apply list_elem_of_fmap_2.
  - destruct (drizzle_eq users_email (VStr email) r0) eqn:E.
    + apply drizzle_eq_email in E. exfalso. apply Hfresh.
      rewrite E, <- Hr. by apply list_elem_of_fmap_2.
    + by apply IH.
Qed.

(** The verdict of [authenticateUser] is a function of the table alone. *)
Lemma authenticateUser_verdict (email : string) (password : jsval)
    (w1 w2 : World) :
  List.filter (drizzle_eq users_email (VStr email)) (users w1)
  = List.filter (drizzle_eq users_email (VStr email)) (users w2) ->
  fst (authenticateUser eksblowfish email password w1)
  = fst (authenticateUser eksblowfish email password w2).
Proof.
  intros E. unfold_lookup. rewrite E.
  destruct (List.filter _ (users w2)) as [|r rest].
  - by destruct (has_nul email).
  - cbn. change (prop _ "password") with (VStr (row_password r)).
    destruct password; try reflexivity.
    rewrite !comparePassword_strings. by destruct (Bcrypt.compare _ _ _).
Qed.



(** *** Error behaviour *)

(** X4.  When a [createUser] call fails, it stored nothing, and its error
    is "User with this email already exists" if and only if a stored user
    has the email; every other failure (of the lookup, of the hashing, of
    the insert) carries another error. *)
Theorem createUser_failure_taxonomy
    (name email : string) (password : jsval) (role : option string)
    (w w' : World) (e : JsError) :
  createUser eksblowfish name email password role w = (Throws e, w') ->
  users w' = users w
  /\ (e = Error "User with this email already exists"
      <-> exists r, r ∈ users w /\ row_email r = email).
Proof.
  intros H. apply createUser_throws in H as (Hu & _ & He).
  split; [done |]. rewrite He. split.
  - intros Hf.
    destruct (List.filter _ (users w)) as [|r rest] eqn:F; [done |].
    exists r. by apply (lookup_first_matches _ _ rest).
  - intros (r & Hin & Hr).
    destruct (lookup_known_email email (users w) r Hin Hr)
      as (r' & rest & -> & _). done.
Qed.



(** X11.  [hashPassword] hides the library's error: whenever it throws, the
    error is "Error hashing the password", the library call has rejected,
    and the library's own error is what the log receives; no salt is
    consumed and the table is untouched. *)
Theorem hashPassword_masks_library_error
    (password : jsval) (w w' : World) (e : JsError) :
  hashPassword eksblowfish password w = (Throws e, w') ->
  e = Error "Error hashing the password"
  /\ exists e0,
       bcrypt_hash eksblowfish password 10 w = (Throws e0, w)
       /\ w' = with_log error
                 ("Error hashing the password: " +:+ error_to_string e0) w.
Proof.
  unfold_service. destruct password as [| | | |p|];
    try (intros [= <- <-]; split; [reflexivity | by eexists]).
  destruct (entropy w); [| discriminate].
  intros [= <- <-]. split; [reflexivity | by eexists].
Qed.


(** *** Invariants and composition *)

(** X3.  A [createUser] call that runs alone, with no other request
    touching the table between its lookup and its insert, keeps emails
    unique: if no two stored users share an email before the call, none do
    after it, whether the call succeeds or fails.  (The lookup and the
    insert are separate statements; nothing is stated here about calls
    that interleave.) *)
Theorem createUser_keeps_emails_unique
    (name email : string) (password : jsval) (role : option string)
    (w : World) :
  emails_unique w ->
  emails_unique (snd (createUser eksblowfish name email password role w)).
Proof.
  unfold emails_unique. intros Hnd.
  destruct (createUser eksblowfish name email password role w)
    as [[u|e] w'] eqn:H; simpl.
  - apply createUser_returns in H as (p & s & rest & _ & _ & E & _ & ->).
    rewrite map_app. apply NoDup_app. split; [done |]. split.
    + intros x Hx Hx'. simpl in Hx'. apply list_elem_of_singleton in Hx'.
      apply list_elem_of_fmap in Hx as (r & -> & Hr).
      by apply (lookup_empty_unknown _ _ E r Hr).
    + apply NoDup_singleton.
  - apply createUser_throws in H as (-> & _). done.
Qed.

(** X7.  An email registers once: right after a successful [createUser],
    every further [createUser] with the same email, whatever the name,
    password and role, fails with "User with this email already exists" and
    stores nothing. *)
Theorem createUser_twice_is_rejected
    (name email : string) (password : jsval) (role : option string)
    (w w' : World) (u : obj)
    (name2 : string) (password2 : jsval) (role2 : option string) :
  createUser eksblowfish name email password role w = (Returns u, w') ->
  fst (createUser eksblowfish name2 email password2 role2 w')
    = Throws (Error "User with this email already exists")
  /\ users (snd (createUser eksblowfish name2 email password2 role2 w'))
     = users w'.
Proof.
  intros H.
  apply createUser_returns in H as (p & s & rest & _ & _ & _ & _ & Hu).
  set (r := created_row eksblowfish name email p role s w) in *.
  assert (Hin : r ∈ users w').
  { rewrite Hu. apply elem_of_app. right. by apply list_elem_of_singleton. }
  destruct (lookup_known_email email (users w') r Hin eq_refl)
    as (r' & rest' & E & _ & _).
  by rewrite (createUser_taken eksblowfish _ _ _ _ _ _ _ E).
Qed.

(** X8.  Signing someone up does not change what the others get: for every
    email other than the one passed to [createUser], [authenticateUser]
    gives the same verdict (the same user or the same error) after the
    call as before it. *)
Theorem createUser_preserves_other_sign_ins
    (name email : string) (password : jsval) (role : option string)
    (w : World) (email' : string) (password' : jsval) :
  email' <> email ->
  fst (authenticateUser eksblowfish email' password'
         (snd (createUser eksblowfish name email password role w)))
  = fst (authenticateUser eksblowfish email' password' w).
Proof.
  intros Hne. apply authenticateUser_verdict.
  destruct (createUser eksblowfish name email password role w)
    as [[u|e] w'] eqn:H; simpl.
  - apply createUser_returns in H as (p & s & rest & _ & _ & _ & _ & ->).
    apply lookup_app_other. simpl. congruence.
  - by apply createUser_throws in H as (-> & _).
Qed.

(** X9.  After a successful [createUser] the listing of [getAllUsers] is
    the previous listing followed by one entry for the new user, and that
    entry agrees with the object [createUser] returned on every field of
    the latter. *)
Theorem createUser_then_getAllUsers
    (name email : string) (password : jsval) (role : option string)
    (w w' : World) (u : obj) :
  createUser eksblowfish name email password role w = (Returns u, w') ->
  exists before entry,
    fst (getAllUsers w) = Returns before
    /\ fst (getAllUsers w') = Returns (before ++ [entry])%list
    /\ u ⊆ entry
    /\ entry !! "email" = Some (VStr email)
    /\ entry !! "name" = Some (VStr name).
Proof.
  intros H.
  apply createUser_returns in H as (p & s & rest & _ & _ & _ & -> & Hu).
  set (r := created_row eksblowfish name email p role s w) in *.
  exists (map (project listed_columns) (users w)), (project listed_columns r).
  split; [reflexivity |]. split.
  { rewrite getAllUsers_run. simpl. by rewrite Hu, map_app. }
  split; [| by split].
  assert (E : project created_columns r
              = delete "updated_at" (project listed_columns r))
    by reflexivity.
  rewrite E. apply delete_subseteq.
Qed.

(** X10.  A role passed to [createUser] is stored as given, whatever the
    string: the service itself restricts roles to no set of values. *)
Theorem createUser_stores_given_role
    (name email : string) (password : jsval) (role : string)
    (w w' : World) (u : obj) :
  createUser eksblowfish name email password (Some role) w = (Returns u, w') ->
  u !! "role" = Some (VStr role)
  /\ exists r,
       users w' = (users w ++ [r])%list
       /\ row_role r = role
       /\ row_name r = name /\ row_email r = email.
Proof.
  intros H.
  apply createUser_returns in H as (p & s & rest & _ & _ & _ & -> & Hu).
  split; [reflexivity |]. by eexists.
Qed.

(** X13.  While emails are unique, sign-in does not depend on the order of
    the rows: for any stored user with the given email,
    [authenticateUser] returns that user without its password when the
    password verifies against that user's digest, and fails with "Invalid
    email or password" when it does not. *)
Theorem authenticateUser_by_unique_email
    (email p : string) (w : World) (r : UserRow) :
  emails_unique w -> r ∈ users w -> row_email r = email ->
  fst (authenticateUser eksblowfish email (VStr p) w)
  = if Bcrypt.compare eksblowfish p (row_password r)
    then Returns (without_password (project all_columns r))
    else Throws (Error "Invalid email or password").
Proof.
  intros Hnd Hin Hr.
  rewrite (authenticateUser_known eksblowfish _ _ _ _ _
             (lookup_unique _ _ _ Hnd Hin Hr)).
  by destruct (Bcrypt.compare eksblowfish p (row_password r)).
Qed.

End ServiceBehaviour.

(** ** Further properties of the sign-up controller *)

Section ControllerBehaviour.

Context {ZodError : Type}.
Variable safeParse : obj -> SafeParseResult ZodError.
Variable format : ZodError -> string.

(** X1.  A body that fails validation is answered with status 400 and
    exactly the fields [error] ("Validation Failded") and [details] (the
    formatted validation error); nothing is logged and nothing is stored. *)
Theorem signup_rejects_invalid_body
    (body : obj) (err : ZodError) (w : World) :
  safeParse body = ParseFailure err ->
  exists answer,
    signup safeParse format body w = (Returns (Sent 400 answer), w)
    /\ dom answer = ({[ "error"; "details" ]} : gset string)
    /\ answer !! "error" = Some (VStr "Validation Failded")
    /\ answer !! "details" = Some (VStr (format err)).
Proof.
  intros E. eexists. split; [by apply signup_invalid_body |].
  split; [| by split].
  rewrite dom_insert_L, dom_singleton_L. set_solver.
Qed.

(** X2.  The handler always settles the request and never throws: it
    either answers 400 or hands an error to [next].  In particular it never
    answers 409: the branch of its catch block for a duplicate email cannot
    be reached. *)
Theorem signup_answers_400_or_forwards (body : obj) (w : World) :
  (exists answer, fst (signup safeParse format body w)
                  = Returns (Sent 400 answer))
  \/ (exists e, fst (signup safeParse format body w)
                = Returns (Forwarded e)).
Proof.
  unfold signup, try_catch.
  destruct (safeParse body) as [data|err]; simpl.
  - right. by eexists.
  - left. by eexists.
Qed.

End ControllerBehaviour.

(** ** The further properties on the sample data *)

(** X1, on the sample: the empty body. *)
Lemma signup_rejects_invalid_body_witness :
  exists answer,
    signup sample_safeParse sample_format ∅ fresh_world
    = (Returns (Sent 400 answer), fresh_world)
    /\ dom answer = ({[ "error"; "details" ]} : gset string)
    /\ answer !! "error" = Some (VStr "Validation Failded")
    /\ answer !! "details" = Some (VStr (sample_format tt)).
Proof.
  apply (signup_rejects_invalid_body sample_safeParse sample_format ∅ tt
           fresh_world).
  reflexivity.
Defined.

(** On the sample with a salt at hand, the sign-up of "B" next to "A"
    succeeds and stores a second row. *)
Example second_signup_succeeds :
  map row_email
    (users (snd (createUser sample_eksblowfish "B" "b@x.com" (VStr "p2") None
                   world_with_a_ready)))
  = ["a@x.com"; "b@x.com"].
Proof. vm_compute. reflexivity. Qed.

(** A name the store cannot hold: the insert is rejected, the error is
    rethrown as it is, and nothing is stored. *)
Example signup_with_nul_in_name :
  fst (createUser sample_eksblowfish (String Ascii.zero "A") "a@x.com"
         (VStr "p1") None fresh_world) = Throws store_rejection
  /\ users (snd (createUser sample_eksblowfish (String Ascii.zero "A")
                   "a@x.com" (VStr "p1") None fresh_world)) = [].
Proof. split; vm_compute; reflexivity. Qed.

(** An email the store cannot hold: the lookup itself is rejected. *)
Example signup_with_nul_in_email :
  fst (createUser sample_eksblowfish "A" email_with_nul (VStr "p1") None
         fresh_world) = Throws store_rejection
  /\ lookup_resolves email_with_nul fresh_world = false.
Proof. split; vm_compute; reflexivity. Qed.

(** X3, on the sample: "B" signs up next to "A". *)
Lemma createUser_keeps_emails_unique_witness :
  emails_unique
    (snd (createUser sample_eksblowfish "B" "b@x.com" (VStr "p2") None
            world_with_a_ready)).
Proof.
  apply (createUser_keeps_emails_unique sample_eksblowfish "B" "b@x.com"
           (VStr "p2") None world_with_a_ready).
  unfold emails_unique.
  change (users world_with_a_ready) with (users world_with_a).
  rewrite world_with_a_users. apply NoDup_singleton.
Defined.

(** X4, on the sample: the email of "A" once more. *)
Lemma createUser_failure_taxonomy_witness :
  users world_after_duplicate = users world_with_a
  /\ (Error "User with this email already exists"
      = Error "User with this email already exists"
      <-> exists r, r ∈ users world_with_a /\ row_email r = "a@x.com").
Proof.
  apply (createUser_failure_taxonomy sample_eksblowfish "B" "a@x.com"
           (VStr "p2") None world_with_a world_after_duplicate
           (Error "User with this email already exists")).
  vm_compute. reflexivity.
Defined.



(** X7, on the sample: "A" signs up, then "B" tries the same email. *)
Lemma createUser_twice_is_rejected_witness :
  fst (createUser sample_eksblowfish "B" "a@x.com" (VStr "p2") (Some "admin")
         world_with_a)
    = Throws (Error "User with this email already exists")
  /\ users (snd (createUser sample_eksblowfish "B" "a@x.com" (VStr "p2")
                   (Some "admin") world_with_a))
     = users world_with_a.
Proof.
  apply (createUser_twice_is_rejected sample_eksblowfish "A" "a@x.com"
           (VStr "p1") None fresh_world world_with_a
           (project created_columns row_a)).
  vm_compute. reflexivity.
Defined.

(** X8, on the sample: "B" signs up next to "A" (and is stored, see
    [second_signup_succeeds]); the sign-in of "A" is as before. *)
Lemma createUser_preserves_other_sign_ins_witness :
  fst (authenticateUser sample_eksblowfish "a@x.com" (VStr "p1")
         (snd (createUser sample_eksblowfish "B" "b@x.com" (VStr "p2") None
                 world_with_a_ready)))
  = fst (authenticateUser sample_eksblowfish "a@x.com" (VStr "p1")
           world_with_a_ready).
Proof.
  apply (createUser_preserves_other_sign_ins sample_eksblowfish "B" "b@x.com"
           (VStr "p2") None world_with_a_ready "a@x.com" (VStr "p1")).
  discriminate.
Defined.

(** X9, on the sample: the listing after the first sign-up. *)
Lemma createUser_then_getAllUsers_witness :
  exists before entry,
    fst (getAllUsers fresh_world) = Returns before
    /\ fst (getAllUsers world_with_a) = Returns (before ++ [entry])%list
    /\ project created_columns row_a ⊆ entry
    /\ entry !! "email" = Some (VStr "a@x.com")
    /\ entry !! "name" = Some (VStr "A").
Proof.
  apply (createUser_then_getAllUsers sample_eksblowfish "A" "a@x.com"
           (VStr "p1") None fresh_world world_with_a
           (project created_columns row_a)).
  vm_compute. reflexivity.
Defined.

(** X10, on the sample: a sign-up with role "admin". *)
Lemma createUser_stores_given_role_witness :
  project created_columns row_admin !! "role" = Some (VStr "admin")
  /\ exists r,
       users world_with_admin = (users fresh_world ++ [r])%list
       /\ row_role r = "admin"
       /\ row_name r = "R" /\ row_email r = "r@x.com".
Proof.
  apply (createUser_stores_given_role sample_eksblowfish "R" "r@x.com"
           (VStr "p3") "admin" fresh_world world_with_admin
           (project created_columns row_admin)).
  vm_compute. reflexivity.
Defined.

(** X11, on the sample: hashing an absent password. *)
Lemma hashPassword_masks_library_error_witness :
  Error "Error hashing the password" = Error "Error hashing the password"
  /\ exists e0,
       bcrypt_hash sample_eksblowfish VUndefined 10 fresh_world
       = (Throws e0, fresh_world)
       /\ with_log error
            "Error hashing the password: Error: data and salt arguments required"
            fresh_world
          = with_log error
              ("Error hashing the password: " +:+ error_to_string e0)
              fresh_world.
Proof.
  apply (hashPassword_masks_library_error sample_eksblowfish VUndefined
           fresh_world).
  reflexivity.
Defined.


(** X13, on the sample: "A" signs in. *)
Lemma authenticateUser_by_unique_email_witness :
  fst (authenticateUser sample_eksblowfish "a@x.com" (VStr "p1") world_with_a)
  = if Bcrypt.compare sample_eksblowfish "p1" (row_password row_a)
    then Returns (without_password (project all_columns row_a))
    else Throws (Error "Invalid email or password").
Proof.
  apply (authenticateUser_by_unique_email sample_eksblowfish "a@x.com" "p1"
           world_with_a row_a).
  - unfold emails_unique. rewrite world_with_a_users. apply NoDup_singleton.
  - rewrite world_with_a_users. left.
  - reflexivity.
Defined.
